(** * WereSync boot plugins: a shallow embedding of
      [weresync/plugins/weresync_grub2.py] and
      [weresync/plugins/weresync_uuid_copy.py].

    The two [install_bootloader] methods are embedded as functions in a
    state-and-exception monad.  The state holds the operating-system view
    the plugins act on (mount table, file modes, file contents), the
    chronological trace of the calls they make, and the local flags of the
    running Python frame.  Everything the plugins only consume (the target
    device, the copier, the file system, the external installer) is a field
    of an environment record. *)

From stdpp Require Import base gmap strings list pretty.
From Stdlib Require Import ZArith Lia Ascii String.

Local Open Scope Z_scope.
Local Open Scope string_scope.

(** ** Exceptions and outcomes *)

(** [DeviceError(device, message, long_message)] and [CopyError(message)] are
    the two exceptions of [weresync.exception]; the others are the built-in
    exceptions the code can meet. *)
Inductive Exn : Type :=
| DeviceError (dev : string) (msg : string) (long : option string)
| CopyError (msg : string)
| AttributeError (attr : string)
| TypeError (msg : string)
| OSError (msg : string).

(** How [plugins.translate_uuid] can fail: a device operation (it mounts
    the partition itself) or file input/output. *)
Inductive TranslateFailure : Type :=
| TrDevice (msg : string)
| TrOS (msg : string).

Inductive Outcome (A : Type) : Type :=
| Ret (a : A)
| Raise (e : Exn).
Arguments Ret {A} a.
Arguments Raise {A} e.

Definition is_DeviceError (e : Exn) : bool :=
  match e with DeviceError _ _ _ => true | _ => false end.

(** ** The operating-system view *)

(** Partitions are numbered; [mounts] maps a mounted partition to its mount
    point ([None]: not mounted), [st_mode] gives the mode word of the files
    that exist, [contents] their text. *)
Record OS : Type := mkOS {
  mounts : gmap Z string;
  st_mode : gmap string Z;
  contents : gmap string string
}.

(** The steps of the in-place rewrite of [grub.cfg] that can fail. *)
Inductive IoOp : Type :=
| IoOpen | IoRead | IoSeek | IoWrite | IoTruncate | IoFlush | IoClose.

Inductive Event : Type :=
| EvMountPoint (i : Z)
| EvMount (i : Z) (path : string) (ok : bool)
| EvUnmount (i : Z) (ok : bool)
| EvExists (path : string) (found : bool)
| EvMakedirs (path : string) (ok : bool)
| EvStat (path : string) (ok : bool)
| EvIo (op : IoOp) (path : string) (ok : bool)
| EvChmod (path : string) (mode : Z) (ok : bool)
| EvPopen (cmd : list string)
| EvTranslate (i : Z) (dir : string) (mnt : string)
    (failure : option TranslateFailure)
| EvWarning (msg : string)
| EvDebug (msg : string)
| EvPrint (msg : string).

(** The boolean locals of the running frame. [GrubPlugin.install_bootloader]
    uses all three, [UUIDPlugin.install_bootloader] only [mounted_here]. *)
Record Locals : Type := mkLocals {
  mounted_here : bool;
  boot_mounted_here : bool;
  efi_mounted_here : bool
}.

Record State : Type := mkState {
  os : OS;
  trace : list Event;
  locals : Locals
}.

(** ** The environment

    What the plugins consume but do not define.  A failing primitive is
    described by the message of the exception it raises ([None]: it
    succeeds); the answers may depend on the current operating-system
    view. *)
Record Env : Type := mkEnv {
  (* copier.target.device *)
  device : string;
  (* copier.target.get_partitions() *)
  get_partitions : list Z;
  (* copier.get_uuid_dict() *)
  get_uuid_dict : list (string * string);
  (* str(copier.get_uuid_dict()) *)
  str_uuid_dict : string;
  (* weresync.device.multireplace *)
  multireplace : string -> list (string * string) -> string;
  mount_error : OS -> Z -> string -> option string;
  unmount_error : OS -> Z -> option string;
  path_exists : OS -> string -> bool;
  makedirs_error : OS -> string -> option string;
  io_error : OS -> IoOp -> string -> option string;
  chmod_error : OS -> string -> Z -> option string;
  (* how the kernel changes a mode word when the file is written to *)
  mode_after_write : Z -> Z;
  (* subprocess.Popen(...).communicate(): return code and decoded output *)
  run_process : OS -> list string -> option (Z * string);
  (* weresync.plugins.translate_uuid *)
  translate_uuid_impl :
    OS -> Z -> string -> string -> OS * option TranslateFailure
}.

(** ** The monad *)

Definition M (A : Type) : Type := State -> State * Outcome A.

Definition ret {A} (a : A) : M A := fun s => (s, Ret a).

Definition raise {A} (e : Exn) : M A := fun s => (s, Raise e).

Definition bind {A B} (m : M A) (k : A -> M B) : M B :=
  fun s =>
    match m s with
    | (s', Ret a) => k a s'
    | (s', Raise e) => (s', Raise e)
    end.

Declare Scope py_scope.
Delimit Scope py_scope with py.
Notation "x <- m ;; k" := (bind m (fun x => k))
  (at level 100, m at next level, right associativity) : py_scope.
Notation "m ;; k" := (bind m (fun _ => k))
  (at level 100, right associativity) : py_scope.
Local Open Scope py_scope.

(** [try: body except DeviceError: handler] *)
Definition try_except_DeviceError {A} (body handler : M A) : M A :=
  fun s =>
    match body s with
    | (s', Raise e) =>
        if is_DeviceError e then handler s' else (s', Raise e)
    | r => r
    end.

(** [try: body finally: fin].  The [finally] block runs on every exit of
    [body]; an exception it raises replaces whatever [body] produced. *)
Definition try_finally {A} (body : M A) (fin : M unit) : M A :=
  fun s =>
    match body s with
    | (s1, r) =>
        match fin s1 with
        | (s2, Ret _) => (s2, r)
        | (s2, Raise e) => (s2, Raise e)
        end
    end.

Definition emit (e : Event) : M unit :=
  fun s => (mkState (os s) (trace s ++ [e]) (locals s), Ret tt).

Definition get_os : M OS := fun s => (s, Ret (os s)).

Definition put_os (o : OS) : M unit :=
  fun s => (mkState o (trace s) (locals s), Ret tt).

Definition get_locals : M Locals := fun s => (s, Ret (locals s)).

Definition put_locals (l : Locals) : M unit :=
  fun s => (mkState (os s) (trace s) l, Ret tt).

Definition set_mounted_here (b : bool) : M unit :=
  l <- get_locals ;;
  put_locals (mkLocals b (boot_mounted_here l) (efi_mounted_here l)).

Definition set_boot_mounted_here (b : bool) : M unit :=
  l <- get_locals ;;
  put_locals (mkLocals (mounted_here l) b (efi_mounted_here l)).

Definition set_efi_mounted_here (b : bool) : M unit :=
  l <- get_locals ;;
  put_locals (mkLocals (mounted_here l) (boot_mounted_here l) b).

Definition LOGGER_warning (msg : string) : M unit := emit (EvWarning msg).
Definition LOGGER_debug (msg : string) : M unit := emit (EvDebug msg).
Definition print (msg : string) : M unit := emit (EvPrint msg).

(** ** Strings *)

(** [s.endswith("/")] *)
Fixpoint endswith_slash (s : string) : bool :=
  match s with
  | EmptyString => false
  | String c EmptyString => Ascii.eqb c "/"%char
  | String _ rest => endswith_slash rest
  end.

(** [s + ("/" if not s.endswith("/") else "")] *)
Definition with_slash (s : string) : string :=
  s +:+ (if negb (endswith_slash s) then "/" else "").

(** [os.path.isabs(path)] *)
Definition isabs (path : string) : bool :=
  match path with
  | String c _ => Ascii.eqb c "/"
  | EmptyString => false
  end.

(** [sep.join(l)] *)
Definition join (sep : string) (l : list string) : string :=
  String.concat sep l.

Fixpoint string_drop (n : nat) (s : string) : string :=
  match n, s with
  | O, _ => s
  | S n', EmptyString => EmptyString
  | S n', String _ rest => string_drop n' rest
  end.

Fixpoint string_take (n : nat) (s : string) : string :=
  match n, s with
  | O, _ => EmptyString
  | S n', EmptyString => EmptyString
  | S n', String c rest => String c (string_take n' rest)
  end.

(** ** The primitives the plugins call *)

Section Primitives.
Context (env : Env).

(** Modelled from the spec: [Device.mount_point], [Device.mount_partition]
    and [Device.unmount_partition] belong to [weresync.device], which is
    not among the sources.  A partition has a possibly-null current mount
    path; mounting and unmounting are atomic and raise [DeviceError] on
    failure. *)
Definition mount_point (i : Z) : M (option string) :=
  emit (EvMountPoint i) ;;
  o <- get_os ;;
  ret (mounts o !! i).

Definition mount_partition (i : Z) (path : string) : M unit :=
  o <- get_os ;;
  match mount_error env o i path with
  | Some msg =>
      emit (EvMount i path false) ;;
      raise (DeviceError (device env) msg None)
  | None =>
      emit (EvMount i path true) ;;
      put_os (mkOS (<[i := path]> (mounts o)) (st_mode o) (contents o))
  end.

Definition unmount_partition (i : Z) : M unit :=
  o <- get_os ;;
  match unmount_error env o i with
  | Some msg =>
      emit (EvUnmount i false) ;;
      raise (DeviceError (device env) msg None)
  | None =>
      emit (EvUnmount i true) ;;
      put_os (mkOS (delete i (mounts o)) (st_mode o) (contents o))
  end.

(** [os.path.exists(path)] *)
Definition os_path_exists (path : string) : M bool :=
  o <- get_os ;;
  emit (EvExists path (path_exists env o path)) ;;
  ret (path_exists env o path).

(** [os.makedirs(path, exist_ok=True)] *)
Definition os_makedirs (path : string) : M unit :=
  o <- get_os ;;
  match makedirs_error env o path with
  | Some msg => emit (EvMakedirs path false) ;; raise (OSError msg)
  | None => emit (EvMakedirs path true)
  end.

(** [os.stat(path)[0]]: the mode word; a missing file raises. *)
Definition os_stat_mode (path : string) : M Z :=
  o <- get_os ;;
  match st_mode o !! path with
  | Some m => emit (EvStat path true) ;; ret m
  | None => emit (EvStat path false) ;; raise (OSError "No such file or directory")
  end.

(** The twelve permission bits of a mode word ([0o7777]). *)
Definition perm_bits (m : Z) : Z := Z.land m 4095.

(** [os.chmod(path, mode)]: replaces the permission bits of the file and
    keeps its file-type bits. *)
Definition os_chmod (path : string) (mode : Z) : M unit :=
  o <- get_os ;;
  match chmod_error env o path mode with
  | Some msg => emit (EvChmod path mode false) ;; raise (OSError msg)
  | None =>
      emit (EvChmod path mode true) ;;
      match st_mode o !! path with
      | Some old =>
          put_os (mkOS (mounts o)
                    (<[path := Z.lor (Z.land old (Z.lnot 4095)) (perm_bits mode)]>
                       (st_mode o))
                    (contents o))
      | None => ret tt
      end
  end.

(** One step of file input/output: fails as the environment says, and
    otherwise applies [effect] to the operating-system view. *)
Definition io_step (op : IoOp) (path : string) (effect : OS -> OS) : M unit :=
  o <- get_os ;;
  match io_error env o op path with
  | Some msg => emit (EvIo op path false) ;; raise (OSError msg)
  | None => emit (EvIo op path true) ;; put_os (effect o)
  end.

Definition file_text (o : OS) (path : string) : string :=
  default "" (contents o !! path).

(** [f.read()] on a freshly opened file *)
Definition file_read (path : string) : M string :=
  io_step IoRead path (fun o => o) ;;
  o <- get_os ;;
  ret (file_text o path).

(** [f.write(data)] at offset 0: overwrites the head of the file; the
    kernel may change the mode word of a file that is written to. *)
Definition file_write (path : string) (data : string) : M unit :=
  io_step IoWrite path
    (fun o =>
       mkOS (mounts o)
         (match st_mode o !! path with
          | Some m => <[path := mode_after_write env m]> (st_mode o)
          | None => st_mode o
          end)
         (<[path := data +:+ string_drop (String.length data) (file_text o path)]>
            (contents o))).

(** [f.truncate()] with the position at [n] *)
Definition file_truncate (path : string) (n : nat) : M unit :=
  io_step IoTruncate path
    (fun o =>
       mkOS (mounts o) (st_mode o)
         (<[path := string_take n (file_text o path)]> (contents o))).

(** [with open(path, "r+") as f: body] *)
Definition with_open {A} (path : string) (body : M A) : M A :=
  io_step IoOpen path (fun o => o) ;;
  try_finally body (io_step IoClose path (fun o => o)).

(** [subprocess.Popen(cmd, stdout=PIPE, stderr=STDOUT)] followed by
    [communicate()]: the return code and the combined output. *)
Definition popen_communicate (cmd : list string) : M (Z * string) :=
  emit (EvPopen cmd) ;;
  o <- get_os ;;
  match run_process env o cmd with
  | Some r => ret r
  | None => raise (OSError "Popen failed")
  end.

(** [plugins.translate_uuid(copier, partition, path, target_mnt)] *)
Definition translate_uuid (i : Z) (dir : string) (mnt : string) : M unit :=
  o <- get_os ;;
  let r := translate_uuid_impl env o i dir mnt in
  emit (EvTranslate i dir mnt (snd r)) ;;
  put_os (fst r) ;;
  match snd r with
  | None => ret tt
  | Some (TrDevice msg) => raise (DeviceError (device env) msg None)
  | Some (TrOS msg) => raise (OSError msg)
  end.

(** Modelled from the spec: the base class [IBootPlugin] is not among the
    sources.  A plugin is constructed with a short machine name and a
    display name and exposes [get_help] and [install_bootloader]; it has
    no attribute [target], so reading [self.target] raises
    [AttributeError]. *)
Definition self_target : M unit :=
  raise (AttributeError "target").

End Primitives.

(** ** The plugins *)

(** How one iteration of a [for] loop ends: it falls through to the next
    iteration or leaves the loop by [break]. *)
Inductive LoopCtl : Type := Continue | Break.

Definition newline : string := String (ascii_of_nat 10) EmptyString.

(** Python's [str(i)] for a partition number *)
Definition str_int (i : Z) : string := pretty i.

(** Python's [s + i] for a string [s] and a number [i]: the operands do not
    concatenate. *)
Definition str_plus_int (s : string) (i : Z) : M string :=
  raise (TypeError "can only concatenate str (not int) to str").

Definition could_not_mount (i : Z) : string :=
  "Could not mount partition " +:+ str_int i +:+
  ". Assumed to not be the partition grub is on.".

Module GrubPlugin.
Section Grub.
Context (env : Env).

(** Lines 43-59: the body of the scan loop for candidate [i]. *)
Definition probe (target_mnt : string) (i : Z) : M LoopCtl :=
  try_except_DeviceError
    (mp <- mount_point i ;;
     mp <- match mp with
           | None => mount_partition env i target_mnt ;; ret target_mnt
           | Some p => ret p
           end ;;
     found <- os_path_exists env
                (mp +:+ (if negb (endswith_slash mp) then "/" else "")
                    +:+ "boot/grub") ;;
     if found then ret Break
     else (unmount_partition env i ;; ret Continue))
    (LOGGER_warning (could_not_mount i) ;;
     LOGGER_debug ("Error info:" +:+ newline) ;;
     ret Continue).

(** Lines 42-63: the [for ... else] loop; returns the partition the loop
    assigned to [root_partition] before [break]. *)
Fixpoint scan (target_mnt : string) (parts : list Z) : M Z :=
  match parts with
  | [] =>
      raise (CopyError ("Could not find partition with 'boot/grub' folder on device "
                          +:+ device env))
  | i :: rest =>
      c <- probe target_mnt i ;;
      match c with
      | Break => ret i
      | Continue => scan target_mnt rest
      end
  end.

(** Lines 89-101: the in-place rewrite of [grub.cfg]. *)
Definition update_grub (mount_loc : string) : M unit :=
  let grub_cfg := mount_loc +:+ "boot/grub/grub.cfg" in
  old_perms <- os_stat_mode grub_cfg ;;
  try_finally
    (with_open env grub_cfg
       (cfg <- file_read env grub_cfg ;;
        LOGGER_debug ("UUID Dicts: " +:+ str_uuid_dict env) ;;
        let final := multireplace env cfg (get_uuid_dict env) in
        io_step env IoSeek grub_cfg (fun o => o) ;;
        file_write env grub_cfg final ;;
        file_truncate env grub_cfg (String.length final) ;;
        io_step env IoFlush grub_cfg (fun o => o)))
    (os_chmod env grub_cfg old_perms).

(** Lines 104-111: the installer command line. *)
Definition grub_command (mount_loc : string) (efi_partition : option Z)
  : list string :=
  ["grub-install"; "--boot-directory=" +:+ mount_loc +:+ "boot"; "--recheck"]
  ++ match efi_partition with
     | Some _ =>
         ["--efi-directory=" +:+ mount_loc +:+ "boot/efi";
          "--target=x86_64-efi"; "--removable"]
     | None => ["--target=i386-pc"; device env]
     end.

(** Lines 104-122: build the command, run it, check the return code. *)
Definition install_grub (mount_loc : string) (efi_partition : option Z)
  : M unit :=
  let cmd := grub_command mount_loc efi_partition in
  LOGGER_debug ("Grub command: " +:+ join " " cmd) ;;
  r <- popen_communicate env cmd ;;
  if negb (Z.eqb (fst r) 0)
  then raise (DeviceError (device env) "Error installing grub." (Some (snd r)))
  else ret tt.

(** Lines 69-127: the body of the outer [try]. *)
Definition body (target_mnt : string) (boot_partition : option Z)
    (root_partition : Z) (efi_partition : option Z) : M unit :=
  mount_loc <- mount_point root_partition ;;
  mount_loc <- match mount_loc with
               | None =>
                   mount_partition env root_partition target_mnt ;;
                   set_mounted_here true ;;
                   ret target_mnt
               | Some p => ret p
               end ;;
  let mount_loc :=
    mount_loc +:+ (if negb (endswith_slash mount_loc) then "/" else "") in
  match boot_partition with
  | Some b =>
      mount_partition env b (mount_loc +:+ "boot") ;;
      set_boot_mounted_here true
  | None => ret tt
  end ;;
  match efi_partition with
  | Some e =>
      os_makedirs env (mount_loc +:+ "boot/efi") ;;
      mount_partition env e (mount_loc +:+ "boot/efi") ;;
      set_efi_mounted_here true
  | None => ret tt
  end ;;
  print "Updating Grub" ;;
  update_grub mount_loc ;;
  print "Installing Grub" ;;
  install_grub mount_loc efi_partition ;;
  print ("Consider running update-grub on your backup. WereSync"
         +:+ " copies can sometimes fail to capture all the nuances of a"
         +:+ " complex system.") ;;
  print "Cleaning up.".

(** [copier.target.unmount_partition(p)] for an optional argument; the
    flag that guards the call is only set when the argument is present. *)
Definition unmount_opt (p : option Z) : M unit :=
  match p with
  | Some i => unmount_partition env i
  | None => raise (TypeError "partition is None")
  end.

(** Lines 129-134: the [finally] block. *)
Definition cleanup (boot_partition : option Z) (root_partition : Z)
    (efi_partition : option Z) : M unit :=
  l <- get_locals ;;
  (if efi_mounted_here l then unmount_opt efi_partition else ret tt) ;;
  l <- get_locals ;;
  (if boot_mounted_here l then unmount_opt boot_partition else ret tt) ;;
  l <- get_locals ;;
  (if mounted_here l then unmount_partition env root_partition else ret tt).

(** Lines 37-135: [GrubPlugin.install_bootloader]. *)
Definition install_bootloader (source_mnt target_mnt : string)
    (excluded_partitions : list Z)
    (boot_partition root_partition efi_partition : option Z) : M unit :=
  root_partition <- match root_partition with
                    | None => scan target_mnt (get_partitions env)
                    | Some r => ret r
                    end ;;
  set_mounted_here false ;;
  set_boot_mounted_here false ;;
  set_efi_mounted_here false ;;
  try_finally
    (body target_mnt boot_partition root_partition efi_partition)
    (cleanup boot_partition root_partition efi_partition) ;;
  print "Finished!".

End Grub.
End GrubPlugin.

Module UUIDPlugin.
Section UUID.
Context (env : Env).

(** Lines 47-73: the body of the scan loop for candidate [i]. *)
Definition probe (target_mnt : string) (i : Z) : M LoopCtl :=
  try_finally
    (try_except_DeviceError
       (set_mounted_here false ;;
        mp <- mount_point i ;;
        mp <- match mp with
              | None =>
                  mount_partition env i target_mnt ;;
                  set_mounted_here true ;;
                  ret target_mnt
              | Some p => ret p
              end ;;
        found <- os_path_exists env
                   (mp +:+ (if negb (endswith_slash mp) then "/" else "")
                       +:+ "boot") ;;
        if found
        then (translate_uuid env i "/boot" target_mnt ;; ret Break)
        else ret Continue)
       (LOGGER_warning (could_not_mount i) ;;
        LOGGER_debug ("Error info:" +:+ newline) ;;
        ret Continue))
    (try_except_DeviceError
       (l <- get_locals ;;
        if mounted_here l
        then (self_target ;; unmount_partition env i)
        else ret tt)
       (msg <- str_plus_int "Error unmounting partition " i ;;
        LOGGER_warning msg ;;
        LOGGER_debug ("Error info:" +:+ newline))).

(** Lines 46-77: the [for ... else] loop. *)
Fixpoint scan (target_mnt : string) (parts : list Z) : M unit :=
  match parts with
  | [] =>
      raise (CopyError ("Could not find partition with 'boot' folder on device "
                          +:+ device env))
  | i :: rest =>
      c <- probe target_mnt i ;;
      match c with
      | Break => ret tt
      | Continue => scan target_mnt rest
      end
  end.

(** Lines 40-84: [UUIDPlugin.install_bootloader]. *)
Definition install_bootloader (source_mnt target_mnt : string)
    (excluded_partitions : list Z)
    (boot_partition root_partition efi_partition : option Z) : M unit :=
  match root_partition, boot_partition with
  | None, None => scan target_mnt (get_partitions env)
  | _, Some b => translate_uuid env b "/" target_mnt
  | Some r, None => translate_uuid env r "/boot" target_mnt
  end ;;
  match efi_partition with
  | Some e => translate_uuid env e "/" target_mnt
  | None => ret tt
  end.

End UUID.
End UUIDPlugin.

(** ** Reading a trace *)

(** Partitions whose mount succeeded, in order. *)
Definition mounted_by (tr : list Event) : list Z :=
  omap (fun e => match e with EvMount i _ true => Some i | _ => None end) tr.

(** Partitions whose unmount succeeded, in order. *)
Definition unmounted_by (tr : list Event) : list Z :=
  omap (fun e => match e with EvUnmount i true => Some i | _ => None end) tr.

(** Partitions whose unmount was attempted, in order. *)
Definition unmount_attempts (tr : list Event) : list Z :=
  omap (fun e => match e with EvUnmount i _ => Some i | _ => None end) tr.

(** Partitions whose mount point was queried, in order. *)
Definition probed (tr : list Event) : list Z :=
  omap (fun e => match e with EvMountPoint i => Some i | _ => None end) tr.

(** Paths whose existence test succeeded, in order. *)
Definition markers_found (tr : list Event) : list string :=
  omap (fun e => match e with EvExists p true => Some p | _ => None end) tr.

(** Calls of [translate_uuid], in order. *)
Definition translated (tr : list Event) : list (Z * string * string) :=
  omap (fun e => match e with
                 | EvTranslate i d m _ => Some (i, d, m)
                 | _ => None
                 end) tr.

(** Calls of [translate_uuid] that returned, in order. *)
Definition completed_translations (tr : list Event)
  : list (Z * string * string) :=
  omap (fun e => match e with
                 | EvTranslate i d m None => Some (i, d, m)
                 | _ => None
                 end) tr.

(** Messages logged at warning level, in order. *)
Definition warnings (tr : list Event) : list string :=
  omap (fun e => match e with EvWarning m => Some m | _ => None end) tr.

(** Primitive failures that raise [DeviceError], in order. *)
Definition device_failures (tr : list Event) : list Z :=
  omap (fun e => match e with
                 | EvMount i _ false => Some i
                 | EvUnmount i false => Some i
                 | EvTranslate i _ _ (Some (TrDevice _)) => Some i
                 | _ => None
                 end) tr.

(** Messages printed, in order. *)
Definition printed (tr : list Event) : list string :=
  omap (fun e => match e with EvPrint m => Some m | _ => None end) tr.

(** Whether an event records a call that failed. *)
Definition failed (e : Event) : bool :=
  match e with
  | EvMount _ _ ok | EvUnmount _ ok | EvMakedirs _ ok | EvStat _ ok
  | EvIo _ _ ok | EvChmod _ _ ok => negb ok
  | EvTranslate _ _ _ (Some _) => true
  | _ => false
  end.

(** Calls that failed, in order. *)
Definition failures (tr : list Event) : list Event :=
  omap (fun e => if failed e then Some e else None) tr.

(** ** The rest of the two modules *)

(** What [IBootPlugin.__init__(name, prettyname)] is given. *)
Record PluginInfo : Type := mkPluginInfo {
  plugin_name : string;
  plugin_prettyname : string
}.

(** [GrubPlugin.__init__] (lines 30-31) and [GrubPlugin.get_help]
    (lines 33-35); the two literals of [get_help] are joined as written,
    with nothing between them. *)
Definition grub_init : PluginInfo := mkPluginInfo "grub2" "Grub2".

Definition grub_get_help : string :=
  "Installs the Grub2 bootloader." +:+
  "This works on both UEFI and MBR systems.".

(** [UUIDPlugin.__init__] (lines 33-34) and [UUIDPlugin.get_help]
    (lines 36-38). *)
Definition uuid_init : PluginInfo := mkPluginInfo "uuid_copy" "UUID Copy".

Definition uuid_get_help : string :=
  "Changes all UUIDs in every file of /boot to the new drive's UUIDs."
  +:+ newline +:+ "        " +:+ newline +:+
  "Does not install anything else. This is the default option.".

(** Lines 88-127 of [GrubPlugin.install_bootloader]: what the [try] block
    does once the mount tree is set up. *)
Definition grub_after_mounts (env : Env) (mount_loc : string)
    (efi_partition : option Z) : M unit :=
  (print "Updating Grub" ;;
   GrubPlugin.update_grub env mount_loc ;;
   print "Installing Grub" ;;
   GrubPlugin.install_grub env mount_loc efi_partition ;;
   print ("Consider running update-grub on your backup. WereSync"
          +:+ " copies can sometimes fail to capture all the nuances of a"
          +:+ " complex system.") ;;
   print "Cleaning up.")%py.

(** The unmounts the [finally] block of the grub2 plugin owes for the
    flags [l], in the order it issues them (lines 129-134). *)
Definition owed_unmounts (l : Locals) (boot_partition : option Z)
    (root_partition : Z) (efi_partition : option Z) : list Z :=
  ((if efi_mounted_here l then option_list efi_partition else [])
   ++ (if boot_mounted_here l then option_list boot_partition else [])
   ++ (if mounted_here l then [root_partition] else []))%list.

(** The mounts the [try] block of the grub2 plugin has performed when its
    flags are [l], in the order it performs them (lines 69-86). *)
Definition recorded_mounts (l : Locals) (boot_partition : option Z)
    (root_partition : Z) (efi_partition : option Z) : list Z :=
  ((if mounted_here l then [root_partition] else [])
   ++ (if boot_mounted_here l then option_list boot_partition else [])
   ++ (if efi_mounted_here l then option_list efi_partition else []))%list.

(** ** Frame conditions *)

(** [keeps R m]: every run of [m] relates the state it starts in to the
    state it ends in, however it ends. *)
Definition keeps {A} (R : State -> State -> Prop) (m : M A) : Prop :=
  forall s, R s (fst (m s)).

(** The mount of partition [r] and the flag [mounted_here] are as before. *)
Definition same_root (r : Z) (s s' : State) : Prop :=
  mounts (os s') !! r = mounts (os s) !! r
  /\ mounted_here (locals s') = mounted_here (locals s).

(** ** Concrete scenarios *)

Module Scenario.

Definition fresh (o : OS) : State :=
  mkState o [] (mkLocals false false false).

(** An environment for [/dev/sdb] in which directory creation and [chmod]
    succeed and [multireplace] is the identity; the rest is given. *)
Definition make_env (parts : list Z)
    (mount_err : OS -> Z -> string -> option string)
    (unmount_err : OS -> Z -> option string)
    (exists_ : OS -> string -> bool)
    (io_err : OS -> IoOp -> string -> option string)
    (after_write : Z -> Z)
    (proc : OS -> list string -> option (Z * string))
    (tr : OS -> Z -> string -> string -> OS * option TranslateFailure)
  : Env :=
  mkEnv "/dev/sdb" parts [("old-uuid", "new-uuid")]
    "{'old-uuid': 'new-uuid'}"
    (fun cfg _ => cfg)
    mount_err unmount_err exists_
    (fun _ _ => None) io_err (fun _ _ _ => None) after_write proc tr.

Definition no_mount_error : OS -> Z -> string -> option string :=
  fun _ _ _ => None.
Definition no_unmount_error : OS -> Z -> option string := fun _ _ => None.
Definition no_io_error : OS -> IoOp -> string -> option string :=
  fun _ _ _ => None.
Definition installer_ok : OS -> list string -> option (Z * string) :=
  fun _ _ => Some (0, "Installation finished. No error reported.").
Definition installer_fails : OS -> list string -> option (Z * string) :=
  fun _ _ => Some (1, "grub-install: error").
Definition translate_ok
  : OS -> Z -> string -> string -> OS * option TranslateFailure :=
  fun o _ _ _ => (o, None).

Definition grub_cfg : string := "/mnt/boot/grub/grub.cfg".

(** A disk on which nothing is mounted; [grub.cfg] is a regular file
    with mode [0o100644]. *)
Definition unmounted_disk : OS :=
  mkOS ∅ {[grub_cfg := 33188]} {[grub_cfg := "UUID=old-uuid"]}.

(** The same disk with partition 1 mounted at [/media/data]. *)
Definition data_mounted_disk : OS :=
  mkOS {[1 := "/media/data"]} {[grub_cfg := 33188]}
    {[grub_cfg := "UUID=old-uuid"]}.

(** Partitions 1 and 2 mounted at [/a] and [/b]. *)
Definition both_mounted_disk : OS :=
  mkOS {[1 := "/a"; 2 := "/b"]} ∅ ∅.

(** [boot/grub] is found under [/mnt] once partition [p] is mounted
    there. *)
Definition grub_on (p : Z) : OS -> string -> bool :=
  fun o path =>
    bool_decide (path = "/mnt/boot/grub")
    && bool_decide (mounts o !! p = Some "/mnt").

(** Everything succeeds; partition 1 holds [boot/grub]. *)
Definition single_root : Env :=
  make_env [1] no_mount_error no_unmount_error (grub_on 1) no_io_error
    (fun m => m) installer_ok translate_ok.

(** Everything succeeds; partition 2 holds [boot/grub]. *)
Definition second_root : Env :=
  make_env [1; 2] no_mount_error no_unmount_error (grub_on 2) no_io_error
    (fun m => m) installer_ok translate_ok.

(** Every unmount fails with "target is busy". *)
Definition busy_unmount (proc : OS -> list string -> option (Z * string))
  : Env :=
  make_env [1] no_mount_error (fun _ _ => Some "target is busy")
    (grub_on 1) no_io_error (fun m => m) proc translate_ok.

(** No partition holds the marker. *)
Definition no_marker (parts : list Z) : Env :=
  make_env parts no_mount_error no_unmount_error (fun _ _ => false)
    no_io_error (fun m => m) installer_ok translate_ok.

(** Every path exists; translating partition 1 fails with a device
    error. *)
Definition translate_fails_on_1 : Env :=
  make_env [1; 2] no_mount_error no_unmount_error (fun _ _ => true)
    no_io_error (fun m => m) installer_ok
    (fun o i _ _ =>
       (o, if bool_decide (i = 1) then Some (TrDevice "mount failed")
           else None)).

(** Everything succeeds but the installer, which exits with code 1. *)
Definition failing_installer : Env :=
make_env [1] no_mount_error no_unmount_error (grub_on 1) no_io_error
  (fun m => m) installer_fails translate_ok.



End Scenario.

(** * Proofs *)

(** ** Symbolic execution *)

Ltac simpl_state :=
  cbn [os trace locals fst snd mounts st_mode contents
       mounted_here boot_mounted_here efi_mounted_here is_DeviceError].

Ltac unfold_prims :=
  unfold mount_point, mount_partition, unmount_partition, os_path_exists,
    os_makedirs, translate_uuid, self_target, str_plus_int,
    with_open, file_read, file_write, file_truncate, io_step,
    os_stat_mode, os_chmod, popen_communicate,
    set_mounted_here, set_boot_mounted_here, set_efi_mounted_here,
    LOGGER_warning, LOGGER_debug, print,
    try_except_DeviceError, try_finally, bind, ret, raise, emit,
    get_os, put_os, get_locals, put_locals.

(** Case analysis on the next answer of the environment. *)
Ltac split_oracle :=
  match goal with
  | |- context [match ?x with Some _ => _ | None => _ end] =>
      let E := fresh "E" in destruct x eqn:E; simpl_state
  | |- context [if path_exists ?e ?o ?p then _ else _] =>
      let E := fresh "E" in destruct (path_exists e o p) eqn:E; simpl_state
  end.

Ltac split_translate :=
  match goal with
  | |- context [translate_uuid_impl ?env ?o ?i ?d ?m] =>
      let E := fresh "E" in
      destruct (translate_uuid_impl env o i d m) as [? [[?|?]|]] eqn:E;
      simpl_state
  end.

(** ** Trace observers distribute over concatenation *)

Lemma probed_app (a b : list Event) :
  probed (a ++ b) = (probed a ++ probed b)%list.
Proof. apply omap_app. Qed.

Lemma warnings_app (a b : list Event) :
  warnings (a ++ b) = (warnings a ++ warnings b)%list.
Proof. apply omap_app. Qed.

Lemma device_failures_app (a b : list Event) :
  device_failures (a ++ b) = (device_failures a ++ device_failures b)%list.
Proof. apply omap_app. Qed.

Lemma markers_found_app (a b : list Event) :
  markers_found (a ++ b) = (markers_found a ++ markers_found b)%list.
Proof. apply omap_app. Qed.

Lemma mounted_by_app (a b : list Event) :
  mounted_by (a ++ b) = (mounted_by a ++ mounted_by b)%list.
Proof. apply omap_app. Qed.

Lemma completed_translations_app (a b : list Event) :
  completed_translations (a ++ b)
  = (completed_translations a ++ completed_translations b)%list.
Proof. apply omap_app. Qed.

(** ** Strings and mode words *)

Lemma isabs_inv (d : string) :
  isabs d = true -> exists rest, d = String "/" rest.
Proof.
  destruct d as [|c d]; cbn; [discriminate|].
  intros H. apply Ascii.eqb_eq in H. subst c. eauto.
Qed.


(** ** Running and framing monadic code *)

Create HintDb keeps discriminated.

(** The control structures keep whatever their parts keep. *)
Section Keeps.
Context (R : State -> State -> Prop) `{!PreOrder R}.

Lemma keeps_ret {A} (a : A) : keeps R (ret a).
Proof. intros s. reflexivity. Qed.

Lemma keeps_raise {A} (e : Exn) : keeps R (@raise A e).
Proof. intros s. reflexivity. Qed.

Lemma keeps_bind {A B} (m : M A) (k : A -> M B) :
  keeps R m -> (forall a, keeps R (k a)) -> keeps R (bind m k).
Proof.
  intros Hm Hk s. unfold bind. specialize (Hm s).
  destruct (m s) as [s1 [a|e]]; cbn in *; [|exact Hm].
  etransitivity; [exact Hm|apply Hk].
Qed.

Lemma keeps_try_finally {A} (body : M A) (fin : M unit) :
  keeps R body -> keeps R fin -> keeps R (try_finally body fin).
Proof.
  intros Hb Hf s. unfold try_finally. specialize (Hb s).
  destruct (body s) as [s1 r]. specialize (Hf s1).
  destruct (fin s1) as [s2 [u|e]]; cbn in *; etransitivity; eassumption.
Qed.

Lemma keeps_try_except {A} (body handler : M A) :
  keeps R body -> keeps R handler ->
  keeps R (try_except_DeviceError body handler).
Proof.
  intros Hb Hh s. unfold try_except_DeviceError. specialize (Hb s).
  destruct (body s) as [s1 [a|e]]; cbn in *; [exact Hb|].
  destruct (is_DeviceError e); [|exact Hb].
  etransitivity; [exact Hb|apply Hh].
Qed.

End Keeps.

(** [same_root r] is a preorder, so it can be chained along a run. *)
#[global] Instance same_root_preorder r : PreOrder (same_root r).
Proof.
  split.
  - intros s. split; reflexivity.
  - intros s1 s2 s3 [H1 H2] [H3 H4]. split; congruence.
Qed.

(** The steps of the grub2 plugin that leave the mount of [r] and the flag
    [mounted_here] alone. *)
Section Root.
Context (env : Env) (r : Z).

Lemma keeps_emit e : keeps (same_root r) (emit e).
Proof. intros s. split; reflexivity. Qed.

Lemma keeps_get_os : keeps (same_root r) get_os.
Proof. intros s. split; reflexivity. Qed.

Lemma keeps_get_locals : keeps (same_root r) get_locals.
Proof. intros s. split; reflexivity. Qed.

Lemma keeps_mount_point i : keeps (same_root r) (mount_point i).
Proof. intros s. split; reflexivity. Qed.

Lemma keeps_mount_partition i path :
  i <> r -> keeps (same_root r) (mount_partition env i path).
Proof.
  intros Hi s. unfold mount_partition. unfold_prims. simpl_state.
  destruct (mount_error env (os s) i path); simpl_state;
    (split; [|reflexivity]); [reflexivity|].
  apply lookup_insert_ne. exact Hi.
Qed.

Lemma keeps_unmount_partition i :
  i <> r -> keeps (same_root r) (unmount_partition env i).
Proof.
  intros Hi s. unfold unmount_partition. unfold_prims. simpl_state.
  destruct (unmount_error env (os s) i); simpl_state;
    (split; [|reflexivity]); [reflexivity|].
  apply lookup_delete_ne. exact Hi.
Qed.

Lemma keeps_set_boot b : keeps (same_root r) (set_boot_mounted_here b).
Proof. intros s. split; reflexivity. Qed.

Lemma keeps_set_efi b : keeps (same_root r) (set_efi_mounted_here b).
Proof. intros s. split; reflexivity. Qed.

Lemma keeps_makedirs path : keeps (same_root r) (os_makedirs env path).
Proof.
  intros s. unfold os_makedirs. unfold_prims. simpl_state.
  destruct (makedirs_error env (os s) path); split; reflexivity.
Qed.

Lemma keeps_update_grub mount_loc :
  keeps (same_root r) (GrubPlugin.update_grub env mount_loc).
Proof.
  intros s. unfold GrubPlugin.update_grub. unfold_prims. simpl_state.
  repeat split_oracle.
  all: split; reflexivity.
Qed.

Lemma keeps_install_grub mount_loc efi :
  keeps (same_root r) (GrubPlugin.install_grub env mount_loc efi).
Proof.
  intros s. unfold GrubPlugin.install_grub. unfold_prims. simpl_state.
  destruct (run_process env (os s) _) as [[rc out]|]; simpl_state;
    [destruct (negb (Z.eqb rc 0))|]; split; reflexivity.
Qed.

End Root.

#[global] Hint Resolve keeps_ret keeps_raise keeps_emit keeps_get_os
  keeps_get_locals keeps_mount_point keeps_mount_partition
  keeps_unmount_partition keeps_set_boot keeps_set_efi keeps_makedirs
  keeps_update_grub keeps_install_grub : keeps.

Ltac keeps_step :=
  first [ solve [eauto with keeps]
        | apply keeps_bind; [typeclasses eauto| |intros ?] ].

(** A step that returns hands its result and state to the rest. *)
Lemma bind_run {A B} (m : M A) (k : A -> M B) s s1 a :
  m s = (s1, Ret a) -> bind m k s = k a s1.
Proof. intros H. unfold bind. rewrite H. reflexivity. Qed.

(** When the root partition is already mounted as the [try] block starts,
    the block leaves its mount and the flag [mounted_here] as they are. *)
Lemma grub_body_keeps_found_root env target_mnt boot root efi s mp :
  mounts (os s) !! root = Some mp ->
  boot <> Some root -> efi <> Some root ->
  same_root root s
    (fst (GrubPlugin.body env target_mnt boot root efi s)).
Proof.
  intros Hm Hb He. unfold GrubPlugin.body.
  erewrite bind_run; cycle 1.
  { unfold mount_point. unfold_prims. simpl_state. rewrite Hm. reflexivity. }
  cbn iota beta.
  erewrite bind_run by reflexivity.
  match goal with
  | |- same_root _ _ (fst (?m ?s1)) =>
      transitivity s1; [split; reflexivity|];
      generalize s1; change (keeps (same_root root) m)
  end.
  destruct boot as [b|]; destruct efi as [e|].
  all: try assert (b <> root) by congruence.
  all: try assert (e <> root) by congruence.
  all: unfold print; repeat keeps_step.
Qed.

(** With [mounted_here] false the [finally] block does not touch the root
    partition. *)
Lemma grub_cleanup_keeps_found_root env boot root efi s :
  mounted_here (locals s) = false ->
  boot <> Some root -> efi <> Some root ->
  same_root root s (fst (GrubPlugin.cleanup env boot root efi s)).
Proof.
  intros Hl Hb He. destruct s as [o tr [mh bmh emh]]. cbn in Hl. subst mh.
  unfold GrubPlugin.cleanup, GrubPlugin.unmount_opt.
  unfold_prims. simpl_state.
  destruct emh, bmh, boot as [b|], efi as [e|]; simpl_state.
  all: repeat split_oracle.
  all: split; [|reflexivity]; cbn.
  all: rewrite ?lookup_delete_ne by congruence; reflexivity.
Qed.

(** An exception of the body of [try ... finally] reaches the caller when
    the [finally] block completes, and is replaced when that block
    raises. *)
Lemma try_finally_body_raises {A} (body : M A) (fin : M unit) s e :
  snd (body s) = Raise e ->
  snd (fin (fst (body s))) = Ret tt ->
  snd (try_finally body fin s) = Raise e.
Proof.
  unfold try_finally. destruct (body s) as [s1 r]. cbn. intros -> Hf.
  destruct (fin s1) as [s2 [[]|e']]; cbn in *; [reflexivity|discriminate].
Qed.

Lemma try_finally_fin_raises {A} (body : M A) (fin : M unit) s e :
  snd (fin (fst (body s))) = Raise e ->
  snd (try_finally body fin s) = Raise e.
Proof.
  unfold try_finally. destruct (body s) as [s1 r]. cbn. intros Hf.
  destruct (fin s1) as [s2 [[]|e']]; cbn in *; congruence.
Qed.

(** ** One probe of each scan loop *)

(** A probe of the grub2 scan never raises: it ends the loop on the
    candidate, left mounted, under which [boot/grub] exists, and otherwise
    goes on, after logging one warning per device failure. *)
Lemma grub_probe_spec env target_mnt i s :
  exists s' c evs,
    GrubPlugin.probe env target_mnt i s = (s', Ret c)
    /\ trace s' = (trace s ++ evs)%list
    /\ probed evs = [i]
    /\ warnings evs = could_not_mount <$> device_failures evs
    /\ match c with
       | Break =>
           exists mp,
             mounts (os s') !! i = Some mp
             /\ markers_found evs
                = [mp +:+ (if negb (endswith_slash mp) then "/" else "")
                      +:+ "boot/grub"]
       | Continue => markers_found evs = []
       end.
Proof.
  unfold GrubPlugin.probe. unfold_prims. simpl_state.
  repeat split_oracle.
  all: rewrite <- ?app_assoc; do 3 eexists; split; [reflexivity|].
  all: split; [reflexivity|]; cbn.
  all: repeat split; try reflexivity.
  all: eexists; split; [first [eassumption | apply lookup_insert_eq]|].
  all: reflexivity.
Qed.

(** A probe of the pure-translation scan that did not have to mount its
    candidate. *)
Lemma uuid_probe_spec env target_mnt i s :
  exists s' r evs,
    UUIDPlugin.probe env target_mnt i s = (s', r)
    /\ trace s' = (trace s ++ evs)%list
    /\ probed evs = [i]
    /\ (mounted_by evs = [] ->
        warnings evs = could_not_mount <$> device_failures evs
        /\ match r with
           | Ret Break =>
               completed_translations evs = [(i, "/boot", target_mnt)]
           | Ret Continue => completed_translations evs = []
           | Raise e =>
               completed_translations evs = [] /\ exists msg, e = OSError msg
           end).
Proof.
  unfold UUIDPlugin.probe. unfold_prims. simpl_state.
  repeat first [split_translate | split_oracle].
  all: rewrite <- ?app_assoc; do 3 eexists; split; [reflexivity|].
  all: split; [reflexivity|]; cbn.
  all: split; [reflexivity|].
  all: intros Hm; try discriminate.
  all: repeat split; try reflexivity.
  all: eexists; reflexivity.
Qed.

(** In the grub2 scan a candidate that was already mounted and does not
    hold the marker is unmounted all the same. *)
Lemma grub_probe_unmounts_premounted env target_mnt i s mp :
  mounts (os s) !! i = Some mp ->
  path_exists env (os s)
    (mp +:+ (if negb (endswith_slash mp) then "/" else "") +:+ "boot/grub")
    = false ->
  unmount_error env (os s) i = None ->
  mounts (os (fst (GrubPlugin.probe env target_mnt i s))) !! i = None.
Proof.
  intros Hm Hex Hum. unfold GrubPlugin.probe. unfold_prims. simpl_state.
  rewrite Hm. simpl_state. rewrite Hex. simpl_state. rewrite Hum. simpl_state.
  apply lookup_delete_eq.
Qed.

(** The pure-translation scan leaves such a candidate alone. *)
Lemma uuid_probe_keeps_premounted env target_mnt i s mp :
  mounts (os s) !! i = Some mp ->
  path_exists env (os s)
    (mp +:+ (if negb (endswith_slash mp) then "/" else "") +:+ "boot")
    = false ->
  os (fst (UUIDPlugin.probe env target_mnt i s)) = os s
  /\ snd (UUIDPlugin.probe env target_mnt i s) = Ret Continue.
Proof.
  intros Hm Hex. unfold UUIDPlugin.probe. unfold_prims. simpl_state.
  rewrite Hm. simpl_state. rewrite Hex. simpl_state. split; reflexivity.
Qed.

(** Whenever a probe of the pure-translation scan mounts its candidate,
    the release in the [finally] block reads [self.target] and the probe
    ends in [AttributeError] without any unmount. *)
Lemma uuid_probe_own_mount_raises env target_mnt i s :
  mounts (os s) !! i = None ->
  mount_error env (os s) i target_mnt = None ->
  snd (UUIDPlugin.probe env target_mnt i s) = Raise (AttributeError "target")
  /\ exists evs,
       trace (fst (UUIDPlugin.probe env target_mnt i s)) = (trace s ++ evs)%list
       /\ mounted_by evs = [i] /\ unmount_attempts evs = [].
Proof.
  intros Hm Hok. unfold UUIDPlugin.probe. unfold_prims. simpl_state.
  rewrite Hm. simpl_state. rewrite Hok. simpl_state.
  repeat first [split_translate | split_oracle].
  all: split; [reflexivity|].
  all: rewrite <- ?app_assoc; eexists; split; [reflexivity|].
  all: split; reflexivity.
Qed.

(** ** The scan loops *)

Lemma grub_scan_spec env target_mnt parts s :
  exists s' r evs,
    GrubPlugin.scan env target_mnt parts s = (s', r)
    /\ trace s' = (trace s ++ evs)%list
    /\ warnings evs = could_not_mount <$> device_failures evs
    /\ match r with
       | Ret i =>
           exists pre post mp,
             parts = (pre ++ i :: post)%list
             /\ probed evs = (pre ++ [i])%list
             /\ mounts (os s') !! i = Some mp
             /\ markers_found evs
                = [mp +:+ (if negb (endswith_slash mp) then "/" else "")
                      +:+ "boot/grub"]
       | Raise e =>
           e = CopyError
                 ("Could not find partition with 'boot/grub' folder on device "
                    +:+ device env)
           /\ probed evs = parts
           /\ markers_found evs = []
       end.
Proof.
  revert s. induction parts as [|i rest IH]; intros s.
  - exists s, (Raise (CopyError
              ("Could not find partition with 'boot/grub' folder on device "
                 +:+ device env))), [].
    cbn. rewrite app_nil_r. repeat split; reflexivity.
  - destruct (grub_probe_spec env target_mnt i s)
      as (s1 & c & evs1 & Hrun & Htr & Hprobed & Hwarn & Hc).
    cbn [GrubPlugin.scan]. unfold bind at 1. rewrite Hrun.
    destruct c.
    + destruct (IH s1) as (s2 & r & evs2 & Hrun2 & Htr2 & Hwarn2 & Hr).
      exists s2, r, (evs1 ++ evs2)%list. split; [exact Hrun2|].
      split; [rewrite Htr2, Htr, app_assoc; reflexivity|].
      split; [rewrite warnings_app, device_failures_app, fmap_app, Hwarn, Hwarn2;
              reflexivity|].
      destruct r as [j|e].
      * destruct Hr as (pre & post & mp & -> & Hp & Hm & Hf).
        exists (i :: pre), post, mp. split; [reflexivity|].
        split; [rewrite probed_app, Hprobed, Hp; reflexivity|].
        split; [exact Hm|].
        rewrite markers_found_app, Hc, Hf. reflexivity.
      * destruct Hr as (-> & Hp & Hf). split; [reflexivity|].
        split; [rewrite probed_app, Hprobed, Hp; reflexivity|].
        rewrite markers_found_app, Hc, Hf. reflexivity.
    + exists s1, (Ret i), evs1. split; [reflexivity|].
      split; [exact Htr|]. split; [exact Hwarn|].
      destruct Hc as (mp & Hm & Hf).
      exists [], rest, mp. repeat split; assumption.
Qed.

Lemma uuid_scan_spec env target_mnt parts s :
  exists s' r evs,
    UUIDPlugin.scan env target_mnt parts s = (s', r)
    /\ trace s' = (trace s ++ evs)%list
    /\ (mounted_by evs = [] ->
        warnings evs = could_not_mount <$> device_failures evs
        /\ match r with
           | Ret _ =>
               exists pre i post,
                 parts = (pre ++ i :: post)%list
                 /\ probed evs = (pre ++ [i])%list
                 /\ completed_translations evs = [(i, "/boot", target_mnt)]
           | Raise e =>
               completed_translations evs = []
               /\ ((e = CopyError
                          ("Could not find partition with 'boot' folder on device "
                             +:+ device env)
                    /\ probed evs = parts)
                   \/ (exists msg pre i post,
                         e = OSError msg
                         /\ parts = (pre ++ i :: post)%list
                         /\ probed evs = (pre ++ [i])%list))
           end).
Proof.
  revert s. induction parts as [|i rest IH]; intros s.
  - exists s, (Raise (CopyError
              ("Could not find partition with 'boot' folder on device "
                 +:+ device env))), [].
    cbn. rewrite app_nil_r. repeat split; try reflexivity.
    left. split; reflexivity.
  - destruct (uuid_probe_spec env target_mnt i s)
      as (s1 & c & evs1 & Hrun & Htr & Hprobed & Hc).
    cbn [UUIDPlugin.scan]. unfold bind at 1. rewrite Hrun.
    destruct c as [[|]|e].
    + destruct (IH s1) as (s2 & r & evs2 & Hrun2 & Htr2 & Hr).
      exists s2, r, (evs1 ++ evs2)%list. split; [exact Hrun2|].
      split; [rewrite Htr2, Htr, app_assoc; reflexivity|].
      rewrite mounted_by_app. intros Hm. apply app_eq_nil in Hm as [Hm1 Hm2].
      destruct (Hc Hm1) as [Hw1 Ht1]. destruct (Hr Hm2) as [Hw2 Hr2].
      split; [rewrite warnings_app, device_failures_app, fmap_app, Hw1, Hw2;
              reflexivity|].
      rewrite completed_translations_app, Ht1, probed_app, Hprobed.
      destruct r as [[]|e].
      * destruct Hr2 as (pre & j & post & -> & Hp & Hd).
        exists (i :: pre), j, post. rewrite Hp. repeat split; assumption.
      * destruct Hr2 as [Hd [[-> Hp]|(msg & pre & j & post & -> & -> & Hp)]].
        -- split; [exact Hd|]. left. rewrite Hp. split; reflexivity.
        -- split; [exact Hd|]. right. exists msg, (i :: pre), j, post.
           rewrite Hp. repeat split; reflexivity.
    + exists s1, (Ret tt), evs1. split; [reflexivity|]. split; [exact Htr|].
      intros Hm. destruct (Hc Hm) as [Hw Ht]. split; [exact Hw|].
      exists [], i, rest. repeat split; assumption.
    + exists s1, (Raise e), evs1. split; [reflexivity|]. split; [exact Htr|].
      intros Hm. destruct (Hc Hm) as [Hw [Ht [msg ->]]]. split; [exact Hw|].
      split; [exact Ht|]. right. exists msg, [], i, rest.
      repeat split; assumption.
Qed.

(** ** The root partition the grub2 scan selects is never released *)

(** The partition the scan selects is mounted when the scan ends. *)
Lemma grub_scan_selected_mounted env target_mnt parts s s1 i :
  GrubPlugin.scan env target_mnt parts s = (s1, Ret i) ->
  is_Some (mounts (os s1) !! i).
Proof.
  intros Hscan.
  destruct (grub_scan_spec env target_mnt parts s)
    as (s' & r & evs & Hrun & _ & _ & Hr).
  rewrite Hscan in Hrun. injection Hrun as <- <-.
  destruct Hr as (_ & _ & mp & _ & _ & Hm & _). eauto.
Qed.

(** Whatever root partition the grub2 scan selects, whether the scan
    mounted it or found it mounted, is still mounted when the invocation
    ends, however it ends (a partition that is also given as boot or EFI
    partition apart). *)
Lemma grub_selected_root_stays_mounted env source_mnt target_mnt excluded
    boot efi s s1 i :
  GrubPlugin.scan env target_mnt (get_partitions env) s = (s1, Ret i) ->
  boot <> Some i -> efi <> Some i ->
  is_Some (mounts (os (fst (GrubPlugin.install_bootloader env source_mnt
                              target_mnt excluded boot None efi s))) !! i).
Proof.
  intros Hscan Hb He.
  destruct (grub_scan_selected_mounted _ _ _ _ _ _ Hscan) as [mp Hm].
  unfold GrubPlugin.install_bootloader.
  erewrite bind_run by exact Hscan.
  unfold set_mounted_here, set_boot_mounted_here, set_efi_mounted_here.
  repeat (erewrite bind_run by reflexivity). simpl_state.
  match goal with
  | |- context [try_finally ?b ?c] =>
      pose proof (grub_body_keeps_found_root env target_mnt boot i efi
                    (mkState (os s1) (trace s1) (mkLocals false false false))
                    mp Hm Hb He) as Hbody
  end.
  unfold bind, try_finally.
  destruct (GrubPlugin.body env target_mnt boot i efi _) as [s3 rb].
  destruct Hbody as [Hm3 Hl3]. cbn in Hm3, Hl3.
  pose proof (grub_cleanup_keeps_found_root env boot i efi s3 Hl3 Hb He)
    as [Hm4 _].
  destruct (GrubPlugin.cleanup env boot i efi s3) as [s4 [u|e]]; cbn in Hm4.
  - destruct rb; cbn; rewrite Hm4, Hm3, Hm; eauto.
  - cbn. rewrite Hm4, Hm3, Hm. eauto.
Qed.

(** When the root partition was mounted by the [try] block and its unmount
    fails, the [finally] block raises the unmount's [DeviceError]. *)
Lemma grub_cleanup_unmount_failure_raises env boot root efi s msg :
  locals s = mkLocals true false false ->
  unmount_error env (os s) root = Some msg ->
  snd (GrubPlugin.cleanup env boot root efi s)
  = Raise (DeviceError (device env) msg None)
  /\ exists evs,
       trace (fst (GrubPlugin.cleanup env boot root efi s))
       = (trace s ++ evs)%list
       /\ warnings evs = [].
Proof.
  intros Hl Hu. destruct s as [o tr l]. cbn in Hl, Hu. subst l.
  unfold GrubPlugin.cleanup. unfold_prims. simpl_state. rewrite Hu.
  simpl_state. split; [reflexivity|]. eexists. split; reflexivity.
Qed.

(** * The claims *)

Import Scenario.

(** C1 (code defect).  The claim asks that every partition mounted by an
    invocation is unmounted when it ends.  On the grub2 path the scan loop
    mounts partition 1 at [/mnt] and selects it; the [try] block then finds
    it mounted, leaves [mounted_here] false, and the [finally] block never
    unmounts it: the invocation returns normally with partition 1 still
    mounted, one mount and no unmount in its trace. *)
Theorem grub_scan_mount_leaks :
  let s0 := fresh unmounted_disk in
  let r := GrubPlugin.install_bootloader single_root "/src" "/mnt" []
             None None None s0 in
  mounts (os s0) !! 1 = None
  /\ snd r = Ret tt
  /\ mounted_by (trace (fst r)) = [1]
  /\ unmount_attempts (trace (fst r)) = []
  /\ mounts (os (fst r)) !! 1 = Some "/mnt".
Proof. vm_compute. repeat split; reflexivity. Qed.

(** C2 (code defect).  The claim asks that a [DeviceError] raised by an
    unmount during cleanup is logged and never reaches the caller.  The
    [finally] block of the grub2 plugin calls [unmount_partition] without a
    handler: when the unmount fails after a successful installation the
    invocation raises the unmount's [DeviceError], and after a failed
    installation that error replaces the installer's; nothing is logged. *)
Theorem grub_cleanup_failure_propagates :
  let run proc :=
    GrubPlugin.install_bootloader (busy_unmount proc) "/src" "/mnt" []
      None (Some 1) None (fresh unmounted_disk) in
  last (printed (trace (fst (run installer_ok)))) = Some "Cleaning up."
  /\ snd (run installer_ok)
     = Raise (DeviceError "/dev/sdb" "target is busy" None)
  /\ warnings (trace (fst (run installer_ok))) = []
  /\ snd (GrubPlugin.install_grub (busy_unmount installer_fails) "/mnt/" None
            (fresh unmounted_disk))
     = Raise (DeviceError "/dev/sdb" "Error installing grub."
                (Some "grub-install: error"))
  /\ snd (run installer_fails)
     = Raise (DeviceError "/dev/sdb" "target is busy" None)
  /\ warnings (trace (fst (run installer_fails))) = [].
Proof. vm_compute. repeat split; reflexivity. Qed.

(** C3 (code defect).  The claim asks that the scan releases only mounts
    the probe itself performed.  Partition 1 is mounted at [/media/data]
    before the invocation and does not hold [boot/grub]; the grub2 scan
    mounts nothing for it and unmounts it all the same. *)
Theorem grub_scan_unmounts_premounted :
  let s0 := fresh data_mounted_disk in
  let r := GrubPlugin.scan second_root "/mnt" [1; 2] s0 in
  mounts (os s0) !! 1 = Some "/media/data"
  /\ snd r = Ret 2
  /\ mounted_by (trace (fst r)) = [2]
  /\ unmounted_by (trace (fst r)) = [1]
  /\ mounts (os (fst r)) !! 1 = None.
Proof. vm_compute. repeat split; reflexivity. Qed.

(** C4.  The installer command always carries the boot-directory flag for
    [<mount_root>/boot] and [--recheck].  With an EFI partition it is
    exactly these followed by [--efi-directory=<mount_root>/boot/efi],
    [--target=x86_64-efi] and [--removable], and the device path is not
    among its arguments; without one it is exactly these followed by
    [--target=i386-pc] and the device path, and none of the EFI flags is
    among its arguments.  (The device is named by an absolute path, so it
    cannot be mistaken for an option.) *)
Theorem grub_command_flags env mount_loc efi :
  let cmd := GrubPlugin.grub_command env mount_loc efi in
  let boot_dir := "--boot-directory=" +:+ mount_loc +:+ "boot" in
  let efi_dir := "--efi-directory=" +:+ mount_loc +:+ "boot/efi" in
  (In boot_dir cmd /\ In "--recheck" cmd)
  /\ (efi <> None ->
      cmd = ["grub-install"; boot_dir; "--recheck";
             efi_dir; "--target=x86_64-efi"; "--removable"]
      /\ (isabs (device env) = true -> ~ In (device env) cmd))
  /\ (efi = None ->
      cmd = ["grub-install"; boot_dir; "--recheck";
             "--target=i386-pc"; device env]
      /\ (isabs (device env) = true ->
          ~ In efi_dir cmd /\ ~ In "--target=x86_64-efi" cmd
          /\ ~ In "--removable" cmd)).
Proof.
  intros cmd boot_dir efi_dir. subst cmd boot_dir efi_dir.
  unfold GrubPlugin.grub_command.
  split; [destruct efi; cbn; auto|].
  split.
  - intros He. destruct efi as [e|]; [|congruence]. split; [reflexivity|].
    intros Hd. destruct (isabs_inv _ Hd) as [rest ->].
    cbn. intros H. repeat (destruct H as [H|H]; try discriminate). assumption.
  - intros ->. split; [reflexivity|]. intros Hd.
    destruct (isabs_inv _ Hd) as [rest ->].
    cbn. repeat split; intros H; repeat (destruct H as [H|H]; try discriminate);
      assumption.
Qed.

Lemma grub_command_flags_witness :
  GrubPlugin.grub_command single_root "/mnt/" (Some 3)
  = ["grub-install"; "--boot-directory=/mnt/boot"; "--recheck";
     "--efi-directory=/mnt/boot/efi"; "--target=x86_64-efi"; "--removable"]
  /\ ~ In "/dev/sdb" (GrubPlugin.grub_command single_root "/mnt/" (Some 3))
  /\ GrubPlugin.grub_command single_root "/mnt/" None
     = ["grub-install"; "--boot-directory=/mnt/boot"; "--recheck";
        "--target=i386-pc"; "/dev/sdb"]
  /\ ~ In "--removable" (GrubPlugin.grub_command single_root "/mnt/" None).
Proof.
  destruct (grub_command_flags single_root "/mnt/" (Some 3)) as (_ & He & _).
  destruct (grub_command_flags single_root "/mnt/" None) as (_ & _ & Hn).
  destruct (He ltac:(discriminate)) as [E1 N1].
  destruct (Hn eq_refl) as [E2 N2].
  destruct (N2 eq_refl) as (_ & _ & N3).
  split; [exact E1|]. split; [exact (N1 eq_refl)|].
  split; [exact E2|exact N3].
Defined.



(** With a cleanup that completes, the installer's error is what the
    caller of [install_bootloader] receives. *)
Example installer_error_reaches_caller :
  snd (GrubPlugin.install_bootloader failing_installer "/src" "/mnt" []
         None (Some 1) None (fresh unmounted_disk))
  = Raise (DeviceError "/dev/sdb" "Error installing grub."
             (Some "grub-install: error")).
Proof. vm_compute. reflexivity. Qed.



(** C7, as the claim states it, fails for the pure-translation scan:
    partitions 1 and 2 are mounted and both hold [boot]; translating
    partition 1 raises [DeviceError], which the probe's handler logs, and
    the scan goes on to probe partition 2 although the marker was found
    under partition 1. *)
Lemma uuid_scan_continues_after_match :
  let r := UUIDPlugin.scan translate_fails_on_1 "/mnt" [1; 2]
             (fresh both_mounted_disk) in
  markers_found (trace (fst r)) = ["/a/boot"; "/b/boot"]
  /\ probed (trace (fst r)) = [1; 2]
  /\ translated (trace (fst r)) = [(1, "/boot", "/mnt"); (2, "/boot", "/mnt")]
  /\ snd r = Ret tt.
Proof. vm_compute. repeat split; reflexivity. Qed.

(** C7 (amended).  The grub2 scan probes the partitions in enumeration
    order, logs one warning for each [DeviceError] of a probe and goes on,
    never raises [DeviceError], stops at the first partition under which
    [boot/grub] exists, which it leaves mounted, probes no later partition,
    and raises [CopyError] naming the device when every partition has been
    probed without a match.  The pure-translation scan, when no probe
    mounts its candidate, probes in enumeration order, logs one
    warning for each [DeviceError] of a probe, the translation of a matched
    partition included, and goes on, stops at the first partition whose
    translation under [/boot] returns, probes no later partition, and
    raises [CopyError] naming the device when every partition has been
    probed without such a match (an input/output error of a translation
    ends the scan at that partition). *)
Theorem locator_scan env target_mnt s :
  (exists s' r evs,
      GrubPlugin.scan env target_mnt (get_partitions env) s = (s', r)
      /\ trace s' = (trace s ++ evs)%list
      /\ warnings evs = could_not_mount <$> device_failures evs
      /\ match r with
         | Ret i =>
             exists pre post mp,
               get_partitions env = (pre ++ i :: post)%list
               /\ probed evs = (pre ++ [i])%list
               /\ mounts (os s') !! i = Some mp
               /\ markers_found evs
                  = [mp +:+ (if negb (endswith_slash mp) then "/" else "")
                        +:+ "boot/grub"]
         | Raise e =>
             e = CopyError
                   ("Could not find partition with 'boot/grub' folder on device "
                      +:+ device env)
             /\ probed evs = get_partitions env
             /\ markers_found evs = []
         end)
  /\ (exists s' r evs,
        UUIDPlugin.scan env target_mnt (get_partitions env) s = (s', r)
        /\ trace s' = (trace s ++ evs)%list
        /\ (mounted_by evs = [] ->
            warnings evs = could_not_mount <$> device_failures evs
            /\ match r with
               | Ret _ =>
                   exists pre i post,
                     get_partitions env = (pre ++ i :: post)%list
                     /\ probed evs = (pre ++ [i])%list
                     /\ completed_translations evs
                        = [(i, "/boot", target_mnt)]
               | Raise e =>
                   completed_translations evs = []
                   /\ ((e = CopyError
                              ("Could not find partition with 'boot' folder on device "
                                 +:+ device env)
                        /\ probed evs = get_partitions env)
                       \/ (exists msg pre i post,
                             e = OSError msg
                             /\ get_partitions env = (pre ++ i :: post)%list
                             /\ probed evs = (pre ++ [i])%list))
               end)).
Proof.
  split; [apply grub_scan_spec | apply uuid_scan_spec].
Qed.

Lemma locator_scan_witness :
  (exists s',
      GrubPlugin.scan second_root "/mnt" [1; 2] (fresh unmounted_disk)
      = (s', Ret 2)
      /\ probed (trace s') = [1; 2]
      /\ mounts (os s') !! 2 = Some "/mnt"
      /\ markers_found (trace s') = ["/mnt/boot/grub"])
  /\ (exists s',
        UUIDPlugin.scan translate_fails_on_1 "/mnt" [1; 2]
          (fresh both_mounted_disk)
        = (s', Ret tt)
        /\ mounted_by (trace s') = []
        /\ warnings (trace s') = [could_not_mount 1]
        /\ probed (trace s') = [1; 2]
        /\ completed_translations (trace s') = [(2, "/boot", "/mnt")]).
Proof.
  split.
  - destruct (locator_scan second_root "/mnt" (fresh unmounted_disk))
      as [(s' & r & evs & Hrun & Htr & Hw & Hr) _].
    vm_compute in Hrun. injection Hrun as <- <-.
    eexists. split; [vm_compute; reflexivity|].
    repeat split; vm_compute; reflexivity.
  - destruct (locator_scan translate_fails_on_1 "/mnt"
                (fresh both_mounted_disk))
      as [_ (s' & r & evs & Hrun & Htr & Hr)].
    vm_compute in Hrun. injection Hrun as <- <-.
    cbn in Htr. subst evs.
    destruct (Hr eq_refl) as [Hw (pre & i & post & Hparts & Hp & Hc)].
    eexists. split; [vm_compute; reflexivity|].
    split; [reflexivity|]. split; [exact Hw|].
    split; [vm_compute; reflexivity|]. vm_compute. reflexivity.
Defined.

(** C8.  With a boot partition hinted, the pure-translation plugin
    translates that partition at ["/"] (and nothing under ["/boot"]); with
    only a root partition hinted it translates that partition under
    ["/boot"]; in either branch, once that translation has returned, an EFI
    partition that was given is translated at ["/"] as well.  An exception
    of the hinted translation ends the invocation. *)
Theorem uuid_hinted_translation env source_mnt target_mnt excluded
    boot root efi s :
  let r := UUIDPlugin.install_bootloader env source_mnt target_mnt excluded
             boot root efi s in
  forall p dir,
    (boot = Some p /\ dir = "/") \/
    (boot = None /\ root = Some p /\ dir = "/boot") ->
    let first := snd (translate_uuid env p dir target_mnt s) in
    exists evs,
      trace (fst r) = (trace s ++ evs)%list
      /\ translated evs
         = (p, dir, target_mnt)
             :: match first, efi with
                | Ret _, Some e => [(e, "/", target_mnt)]
                | _, _ => []
                end
      /\ (forall e, first = Raise e -> snd r = Raise e).
Proof.
  intros r p dir Hhint first. subst r first.
  destruct Hhint as [[-> ->]|(-> & -> & ->)]; [destruct root|];
    unfold UUIDPlugin.install_bootloader; unfold_prims; simpl_state.
  all: repeat split_translate.
  all: destruct efi as [e|]; simpl_state.
  all: repeat split_translate.
  all: rewrite <- ?app_assoc; eexists; split; [reflexivity|].
  all: split; [reflexivity|].
  all: intros e' He; try discriminate; inversion He; reflexivity.
Qed.

Lemma uuid_hinted_translation_witness :
  let run boot root :=
    translated
      (trace (fst (UUIDPlugin.install_bootloader single_root "/src" "/mnt" []
                     boot root (Some 3) (fresh both_mounted_disk)))) in
  run (Some 1) (Some 2) = [(1, "/", "/mnt"); (3, "/", "/mnt")]
  /\ run None (Some 2) = [(2, "/boot", "/mnt"); (3, "/", "/mnt")].
Proof.
  intros run; subst run; cbn beta. split.
  - destruct (uuid_hinted_translation single_root "/src" "/mnt" [] (Some 1)
                (Some 2) (Some 3) (fresh both_mounted_disk) 1 "/")
      as (evs & Htr & Hcalls & _); [left; split; reflexivity|].
    rewrite Htr. exact Hcalls.
  - destruct (uuid_hinted_translation single_root "/src" "/mnt" [] None
                (Some 2) (Some 3) (fresh both_mounted_disk) 2 "/boot")
      as (evs & Htr & Hcalls & _); [right; repeat split; reflexivity|].
    rewrite Htr. exact Hcalls.
Defined.

(** C9 (code defect).  The claim asks that a candidate mounted by the scan
    of the pure-translation plugin is unmounted before the loop goes on or
    the invocation returns, a failure of that unmount being logged.  The
    [finally] block releases through [self.target], an attribute the
    plugin does not have: partition 1, mounted by the probe, is never
    unmounted, nothing is logged, and the invocation ends in
    [AttributeError]. *)
Theorem uuid_probe_release_raises :
  let s0 := fresh unmounted_disk in
  let r := UUIDPlugin.install_bootloader (no_marker [1]) "/src" "/mnt" []
             None None None s0 in
  mounts (os s0) !! 1 = None
  /\ snd r = Raise (AttributeError "target")
  /\ mounted_by (trace (fst r)) = [1]
  /\ unmount_attempts (trace (fst r)) = []
  /\ warnings (trace (fst r)) = []
  /\ mounts (os (fst r)) !! 1 = Some "/mnt".
Proof. vm_compute. repeat split; reflexivity. Qed.

(** C10.  Neither plugin reads [source_mnt] or [excluded_partitions]: any
    two values of them give the same final state, trace and outcome. *)
Theorem unused_arguments env target_mnt boot root efi s
    (source_mnt source_mnt' : string) (excluded excluded' : list Z) :
  GrubPlugin.install_bootloader env source_mnt target_mnt excluded
    boot root efi s
  = GrubPlugin.install_bootloader env source_mnt' target_mnt excluded'
      boot root efi s
  /\ UUIDPlugin.install_bootloader env source_mnt target_mnt excluded
       boot root efi s
     = UUIDPlugin.install_bootloader env source_mnt' target_mnt excluded'
         boot root efi s.
Proof. split; reflexivity. Qed.
